(** * PolarPlotter: the reset callback and the chart-building block of app.py

    The script is a Streamlit page.  Two pieces of it carry behaviour of their
    own: the callback [_reset], which writes the default style into the
    session mapping, and the block guarded by [contextlib.suppress], which
    turns the input table and the widget values into a plotly figure.  Both
    are embedded here as functions over explicit state, together with the
    small part of Python, pandas and plotly they rely on.

    Conventions.  A Python computation is a [py.result]: a value or a raised
    exception.  Strings are strings of ASCII characters and column labels are
    strings.  An [int] is a [Z], a [float] a binary64 float; Python's [repr]
    of a float is a parameter of the definitions that print one.  The
    session mapping is a finite map from keys to values.  What the widgets
    return is a record with one field per script variable. *)

From Stdlib Require Import Floats.PrimFloat ZArith DecimalString Ascii String.
From stdpp Require Import gmap strings list.

(** ** Python values and builtins *)

Module py.

(** The exceptions that can arise in the modelled part of the script. *)
Inductive exn := IndexError | NameError | ValueError | KeyError.

Definition exn_eqb (a b : exn) : bool :=
  match a, b with
  | IndexError, IndexError | NameError, NameError
  | ValueError, ValueError | KeyError, KeyError => true
  | _, _ => false
  end.

(** A computation either returns or raises. *)
Inductive result (A : Type) :=
| Ok (a : A)
| Raise (e : exn).
Arguments Ok {A} a.
Arguments Raise {A} e.

Definition bind {A B} (m : result A) (k : A -> result B) : result B :=
  match m with
  | Ok a => k a
  | Raise e => Raise e
  end.

(** [[f(x) for x in l]]: the elements are computed left to right and the
    first exception ends the comprehension. *)
Fixpoint comprehension {A B} (f : A -> result B) (l : list A) : result (list B) :=
  match l with
  | [] => Ok []
  | a :: l' =>
      bind (f a) (fun b => bind (comprehension f l') (fun bs => Ok (b :: bs)))
  end.

(** [with contextlib.suppress(excs): body]: an exception of [excs] ends the
    body silently, any other one propagates. *)
Definition suppress {A} (excs : list exn) (body : result A) : result (option A) :=
  match body with
  | Ok a => Ok (Some a)
  | Raise e => if existsb (exn_eqb e) excs then Ok None else Raise e
  end.

(** Numbers are [int] or [float]; a float is an IEEE 754 binary64. *)
Inductive num :=
| Int (z : Z)
| Float (f : float).

#[warnings="-register-all"]
Inductive obj :=
| Num (n : num)
| Str (s : string)
| List (l : list obj).

(** [l[i]] for a literal index [i >= 0]. *)
Definition getitem {A} (l : list A) (i : nat) : result A :=
  match l !! i with
  | Some a => Ok a
  | None => Raise IndexError
  end.

(** A name of the script's namespace, bound or not. *)
Definition name {A} (binding : option A) : result A :=
  match binding with
  | Some a => Ok a
  | None => Raise NameError
  end.

Fixpoint mem (c : ascii) (chars : string) : bool :=
  match chars with
  | EmptyString => false
  | String c' chars' => Ascii.eqb c c' || mem c chars'
  end.

(** [s.lstrip(chars)] *)
Fixpoint lstrip (s chars : string) : string :=
  match s with
  | EmptyString => EmptyString
  | String c s' => if mem c chars then lstrip s' chars else s
  end.

(** [s[i:j]] for literal [0 <= i <= j]: the bounds are clamped to the
    string. *)
Definition slice (s : string) (i j : nat) : string :=
  String.substring i (j - i) s.

(** *** [int(s, 16)]

    The string is read as CPython's [PyLong_FromString] reads it: blanks,
    an optional sign, an optional [0x] prefix, then digits that single
    underscores may separate, then blanks; anything else is a
    [ValueError].  Characters are taken in the ASCII range. *)

Definition isspace (c : ascii) : bool :=
  let n := N_of_ascii c in
  (N.eqb n 32 || (N.leb 9 n && N.leb n 13))%N.

(** The value of a character as a digit, 37 when it is none. *)
Definition digit_value (c : ascii) : Z :=
  let n := Z.of_N (N_of_ascii c) in
  (if (48 <=? n) && (n <=? 57) then n - 48
   else if (97 <=? n) && (n <=? 122) then n - 87
   else if (65 <=? n) && (n <=? 90) then n - 55
   else 37)%Z.

Fixpoint skip_space (s : string) : string :=
  match s with
  | String c s' => if isspace c then skip_space s' else s
  | EmptyString => s
  end.

Definition take_sign (s : string) : Z * string :=
  match s with
  | String "+" s' => (1%Z, s')
  | String "-" s' => ((-1)%Z, s')
  | _ => (1%Z, s)
  end.

Definition skip_prefix16 (s : string) : string :=
  match s with
  | String "0" (String x s') =>
      if Ascii.eqb x "x" || Ascii.eqb x "X" then
        match s' with
        | String "_" s'' => s''
        | _ => s'
        end
      else s
  | _ => s
  end.

(** The digits: the value read so far, how many digits it has, and whether
    the previous character was an underscore.  [None] on a doubled
    underscore. *)
Fixpoint scan16 (s : string) (acc : Z) (digits : nat) (prev_us : bool)
  : option (Z * nat * bool * string) :=
  match s with
  | EmptyString => Some (acc, digits, prev_us, s)
  | String c s' =>
      if Ascii.eqb c "_" then
        if prev_us then None else scan16 s' acc digits true
      else if (digit_value c <? 16)%Z then
        scan16 s' (16 * acc + digit_value c)%Z (S digits) false
      else Some (acc, digits, prev_us, s)
  end.

Definition int16 (s : string) : result Z :=
  let s := skip_space s in
  let '(sign, s) := take_sign s in
  let s := skip_prefix16 s in
  match s with
  | String "_" _ => Raise ValueError
  | _ =>
      match scan16 s 0%Z 0 false with
      | Some (v, S _, false, rest) =>
          match skip_space rest with
          | EmptyString => Ok (sign * v)%Z
          | _ => Raise ValueError
          end
      | _ => Raise ValueError
      end
  end.

(** *** Formatting *)

(** [sep.join(l)] *)
Definition join (sep : string) (l : list string) : string :=
  String.concat sep l.

(** [repr] of an int. *)
Definition repr_int (z : Z) : string :=
  NilZero.string_of_int (Z.to_int z).

(** [repr] of a number, given the one of floats. *)
Definition repr_num (repr_float : float -> string) (n : num) : string :=
  match n with
  | Int z => repr_int z
  | Float f => repr_float f
  end.

(** [str] of a tuple whose elements print as [reprs]. *)
Definition str_tuple (reprs : list string) : string :=
  match reprs with
  | [] => "()"
  | [x] => "(" +:+ x +:+ ",)"
  | _ => "(" +:+ join ", " reprs +:+ ")"
  end.

(** Truth value of a tuple or a list. *)
Definition truthy {A} (t : list A) : bool :=
  match t with
  | [] => false
  | _ :: _ => true
  end.

(** *** Substitution *)

(** [p in s] for strings. *)
Fixpoint contains (s p : string) : bool :=
  String.prefix p s ||
  match s with
  | EmptyString => false
  | String _ s' => contains s' p
  end.

(** [s.replace(old, new)] for a non-empty [old]: the occurrences of [old]
    are replaced from left to right, without overlap.  [skip] counts the
    characters of the occurrence just replaced that are still to pass. *)
Fixpoint replace_from (skip : nat) (s old new : string) : string :=
  match s with
  | EmptyString => EmptyString
  | String c s' =>
      match skip with
      | S k => replace_from k s' old new
      | 0 =>
          if String.prefix old s
          then new +:+ replace_from (String.length old - 1) s' old new
          else String c (replace_from 0 s' old new)
      end
  end.

Definition replace (s old new : string) : string := replace_from 0 s old new.

End py.

Notation "'do' x <- m ; k" := (py.bind m (fun x => k))
  (at level 10, x name, m at level 100, k at level 200,
   format "'[v' 'do'  x  <-  m ; '/' k ']'").

(** ** pandas: a table as named columns *)

Module pd.

Record DataFrame := { cols : list (string * list py.obj) }.

(** [df.columns] *)
Definition columns (df : DataFrame) : list string := (cols df).*1.

(** What [df[label]] selects: the column when the label names one column,
    the sub-table of all the columns of that label when it names several. *)
Inductive selection :=
| Series (values : list py.obj)
| Frame (df : DataFrame).

Definition getitem (df : DataFrame) (label : string) : py.result selection :=
  match filter (fun c => c.1 = label) (cols df) with
  | [] => py.Raise py.KeyError
  | [c] => py.Ok (Series c.2)
  | cs => py.Ok (Frame {| cols := cs |})
  end.

(** [list(sel)]: a Series iterates over its values, a DataFrame over its
    column labels. *)
Definition to_list (sel : selection) : list py.obj :=
  match sel with
  | Series values => values
  | Frame df => py.Str <$> columns df
  end.

(** A table with [n] rows and distinct column labels, as the spreadsheet
    reader and the data editor produce them. *)
Definition well_formed (df : DataFrame) (n : nat) : Prop :=
  NoDup (columns df) ∧ Forall (fun c => length c.2 = n) (cols df).

End pd.

(** ** plotly.graph_objects: what the script passes to the constructors

    The constructors check their arguments and raise on a value that is not
    one of the property.  The values the widgets return pass that check,
    which is not part of this development: a figure is the record of what
    the script passed. *)

Module go.

Record Scatterpolar := {
  r : list py.obj;
  theta : list py.obj;
  mode : string;
  opacity : py.num;
  hovertemplate : string;
  marker_color : string;
  marker_opacity : py.num;
  marker_size : py.num;
  marker_symbol : string;
  line_color : string;
  line_dash : string;
  line_shape : string;
  line_smoothing : py.num;
  line_width : py.num;
  fill : string;
  fillcolor : string
}.

Record Title := { text : string; x : float; xanchor : string }.

Record Layout := {
  title : Title;
  paper_bgcolor : string;
  plot_bgcolor : string
}.

Record Figure := { data : Scatterpolar; layout : Layout }.

End go.

(** ** The session and the reset callback *)

(** What outlives one run of the script: the mapping [st.session_state], and
    the table held by the data-entry widgets. *)
Record Session := {
  session_state : gmap string py.obj;
  input_table : option pd.DataFrame
}.

(** [st.session_state[key] = value] *)
Definition setitem (key : string) (value : py.obj) (s : Session) : Session :=
  {| session_state := <[key := value]> (session_state s);
     input_table := input_table s |}.

(** A chained assignment [t1 = t2 = ... = value] assigns the targets from
    left to right. *)
Definition setitems (keys : list string) (value : py.obj) (s : Session) : Session :=
  foldl (fun s key => setitem key value s) s keys.

Definition _reset (s : Session) : Session :=
  let s := setitem "title" (py.Str "") s in
  let s := setitem "hovertemplate" (py.Str "%{theta}: %{r}") s in
  let s := setitems ["opacity"; "marker_opacity"; "line_smoothing"]
             (py.Num (py.Int 1)) s in
  let s := setitem "mode" (py.List [py.Str "lines"; py.Str "markers"]) s in
  let s := setitems ["marker_color"; "line_color"; "fillcolor"]
             (py.Str "#636EFA") s in
  let s := setitem "marker_size" (py.Num (py.Int 6)) s in
  let s := setitem "marker_symbol" (py.Str "circle") s in
  let s := setitem "line_dash" (py.Str "solid") s in
  let s := setitem "line_shape" (py.Str "linear") s in
  let s := setitem "line_width" (py.Num (py.Int 2)) s in
  setitem "fill_opacity" (py.Num (py.Float 0.5)) s.

(** The keys of the fifteen customization widgets. *)
Definition style_keys : list string :=
  ["title"; "opacity"; "mode"; "hovertemplate"; "marker_color";
   "marker_opacity"; "marker_size"; "marker_symbol"; "line_color";
   "line_dash"; "line_shape"; "line_smoothing"; "line_width"; "fillcolor";
   "fill_opacity"].

(** ** One run of the script *)

(** The choice of the radio button. *)
Inductive EntryOption :=
| PlayWithExampleData
| UploadAnExcelFile
| AddDataManually.

Definition is_example (o : EntryOption) : bool :=
  match o with
  | PlayWithExampleData => true
  | _ => false
  end.

(** The values the customization widgets return, under the names the script
    binds them to. *)
Record StyleConfig := {
  title : string;
  opacity : py.num;
  mode : list string;
  hovertemplate : string;
  marker_color : string;
  marker_opacity : py.num;
  marker_size : py.num;
  marker_symbol : string;
  line_color : string;
  line_dash : string;
  line_shape : string;
  line_smoothing : py.num;
  line_width : py.num;
  fillcolor : string;
  fill_opacity : py.num
}.

(** The script's namespace when it reaches the sidebar: the radio choice, the
    table ([None] when [input_df] was never bound: the upload option with no
    file) and the widget values. *)
Record Env := {
  option_ : EntryOption;
  input_df : option pd.DataFrame;
  style : StyleConfig
}.

(** Lines 429-434: [rgba]. *)
Definition rgba (fillcolor : string) (fill_opacity : py.num)
  : py.result (list py.num) :=
  do channels <-
    py.comprehension
      (fun i => py.int16 (py.slice (py.lstrip fillcolor "#") i (i + 2)))
      [0; 2; 4];
  py.Ok ((py.Int <$> channels) ++ [fill_opacity]).

Section Visualization.

(** Python's [repr] of a float is taken as given. *)
Variable repr_float : float -> string.

(** [f"RGBA{rgba}" if rgba else "RGBA(99, 110, 250, 0.5)"] *)
Definition fillcolor_of (rgba : list py.num) : string :=
  if py.truthy rgba
  then "RGBA" +:+ py.str_tuple (py.repr_num repr_float <$> rgba)
  else "RGBA(99, 110, 250, 0.5)".

(** Lines 446-450: the labels and the values, closed and reversed. *)
Definition polygon (e : Env) : py.result (list py.obj * list py.obj) :=
  do df <- py.name (input_df e);
  do c0 <- py.getitem (pd.columns df) 0;
  do sel0 <- pd.getitem df c0;
  let labels := pd.to_list sel0 in
  do df <- py.name (input_df e);
  do c1 <- py.getitem (pd.columns df) 1;
  do sel1 <- pd.getitem df c1;
  let values := pd.to_list sel1 in
  do l0 <- py.getitem labels 0;
  let labels := rev (labels ++ [l0]) in
  do v0 <- py.getitem values 0;
  let values := rev (values ++ [v0]) in
  py.Ok (labels, values).

(** Lines 452-469: the trace. *)
Definition scatterpolar (st : StyleConfig) (rgba : list py.num)
    (labels values : list py.obj) : go.Scatterpolar :=
  {| go.r := values;
     go.theta := labels;
     go.mode :=
       match mode st with
       | [] => "none"
       | _ => py.join "+" (mode st)
       end;
     go.opacity := opacity st;
     go.hovertemplate := hovertemplate st +:+ "<extra></extra>";
     go.marker_color := marker_color st;
     go.marker_opacity := marker_opacity st;
     go.marker_size := marker_size st;
     go.marker_symbol := marker_symbol st;
     go.line_color := line_color st;
     go.line_dash := line_dash st;
     go.line_shape := line_shape st;
     go.line_smoothing := line_smoothing st;
     go.line_width := line_width st;
     go.fill := "toself";
     go.fillcolor := fillcolor_of rgba |}.

(** Lines 471-479: the layout. *)
Definition layout (e : Env) : go.Layout :=
  {| go.title :=
       {| go.text :=
            if is_example (option_ e) then "Job Requirements"
            else title (style e);
          go.x := 0.5;
          go.xanchor := "center" |};
     go.paper_bgcolor := "rgba(100,100,100,0)";
     go.plot_bgcolor := "rgba(100,100,100,0)" |}.

(** The body of the [with] block, up to the figure it plots (line 481). *)
Definition build (e : Env) (rgba : list py.num) : py.result go.Figure :=
  do lv <- polygon e;
  py.Ok {| go.data := scatterpolar (style e) rgba lv.1 lv.2;
           go.layout := layout e |}.

(** Lines 445-488: the block under
    [contextlib.suppress(IndexError, NameError)].  [Ok (Some fig)]: the
    figure was plotted; [Ok None]: the block was left silently and nothing
    was plotted. *)
Definition visualization (e : Env) (rgba : list py.num)
  : py.result (option go.Figure) :=
  py.suppress [py.IndexError; py.NameError] (build e rgba).

(** The run from the fill colour on: [rgba] is computed in the sidebar,
    outside the guarded block. *)
Definition script (e : Env) : py.result (option go.Figure) :=
  do t <- rgba (fillcolor (style e)) (fill_opacity (style e));
  visualization e t.

End Visualization.

(** ** Concrete inputs *)

(** The table of the scenario: rows (A,1), (B,2), (C,3). *)
Definition abc_table : pd.DataFrame :=
  {| pd.cols :=
       [("Label", [py.Str "A"; py.Str "B"; py.Str "C"]);
        ("Value", [py.Num (py.Int 1); py.Num (py.Int 2); py.Num (py.Int 3)])] |}.

(** The values the widgets start from (their [value], [default] or first
    option), with an empty title. *)
Definition default_style : StyleConfig :=
  {| title := "";
     opacity := py.Float 1;
     mode := ["lines"; "markers"];
     hovertemplate := "%{theta}: %{r}";
     marker_color := "#636EFA";
     marker_opacity := py.Float 1;
     marker_size := py.Int 6;
     marker_symbol := "circle";
     line_color := "#636EFA";
     line_dash := "solid";
     line_shape := "linear";
     line_smoothing := py.Float 1;
     line_width := py.Int 2;
     fillcolor := "#636EFA";
     fill_opacity := py.Float 0.5 |}.

(** [repr] on the positions of a slider that runs from 0.0 to 1.0 by 0.1,
    which is all the concrete runs below need. *)
#[warnings="-inexact-float"]
Definition repr_slider (f : float) : string :=
  if (f =? 0)%float then "0.0"
  else if (f =? 0.1)%float then "0.1"
  else if (f =? 0.2)%float then "0.2"
  else if (f =? 0.3)%float then "0.3"
  else if (f =? 0.4)%float then "0.4"
  else if (f =? 0.5)%float then "0.5"
  else if (f =? 0.6)%float then "0.6"
  else if (f =? 0.7)%float then "0.7"
  else if (f =? 0.8)%float then "0.8"
  else if (f =? 0.9)%float then "0.9"
  else "1.0".

Definition abc_env (o : EntryOption) (st : StyleConfig) : Env :=
  {| option_ := o; input_df := Some abc_table; style := st |}.

Definition titled_style : StyleConfig :=
  {| title := "My chart";
     opacity := py.Float 1;
     mode := ["lines"; "markers"];
     hovertemplate := "%{theta}: %{r}";
     marker_color := "#636EFA";
     marker_opacity := py.Float 1;
     marker_size := py.Int 6;
     marker_symbol := "circle";
     line_color := "#636EFA";
     line_dash := "solid";
     line_shape := "linear";
     line_smoothing := py.Float 1;
     line_width := py.Int 2;
     fillcolor := "#636EFA";
     fill_opacity := py.Float 0.5 |}.

(** The default style with another fill colour. *)
Definition with_fillcolor (c : string) : StyleConfig :=
  {| title := "";
     opacity := py.Float 1;
     mode := ["lines"; "markers"];
     hovertemplate := "%{theta}: %{r}";
     marker_color := "#636EFA";
     marker_opacity := py.Float 1;
     marker_size := py.Int 6;
     marker_symbol := "circle";
     line_color := "#636EFA";
     line_dash := "solid";
     line_shape := "linear";
     line_smoothing := py.Float 1;
     line_width := py.Int 2;
     fillcolor := c;
     fill_opacity := py.Float 0.5 |}.

(** A session that holds a table and an entry of its own next to a style. *)
Definition busy_session : Session :=
  {| session_state :=
       <["visits" := py.Num (py.Int 3)]>
         (<["title" := py.Str "Old title"]> (∅ : gmap string py.obj));
     input_table := Some abc_table |}.

(** The table of manual entry before any row is typed, and a table of one
    column. *)
Definition empty_table : pd.DataFrame :=
  {| pd.cols := [("Label", []); ("Value", [])] |}.

Definition one_column_table : pd.DataFrame :=
  {| pd.cols := [("Label", [py.Str "A"; py.Str "B"])] |}.

Definition env_of (o : EntryOption) (df : option pd.DataFrame) : Env :=
  {| option_ := o; input_df := df; style := default_style |}.

(** [rgba] of the default style. *)
Definition default_rgba : list py.num :=
  [py.Int 99; py.Int 110; py.Int 250; py.Float 0.5].

(** ** What the statements below are phrased with *)

(** The place of a character in a string, counted from 0. *)
Fixpoint position (c : ascii) (s : string) : option nat :=
  match s with
  | EmptyString => None
  | String c' s' => if Ascii.eqb c c' then Some 0 else S <$> position c s'
  end.

(** The value of a hexadecimal digit: its place among the sixteen digits,
    written small or capital. *)
Definition hexdigit (c : ascii) : option Z :=
  match position c "0123456789abcdef", position c "0123456789ABCDEF" with
  | Some i, _ | None, Some i => Some (Z.of_nat i)
  | None, None => None
  end.

(** The byte decomposition of a colour [#RRGGBB]: one byte per pair of
    digits.  [None] when the string is not such a colour. *)
Definition color_channels (s : string) : option (Z * Z * Z) :=
  match s with
  | String "#" (String h1 (String h2 (String h3 (String h4
      (String h5 (String h6 EmptyString)))))) =>
      d1 ← hexdigit h1; d2 ← hexdigit h2; d3 ← hexdigit h3;
      d4 ← hexdigit h4; d5 ← hexdigit h5; d6 ← hexdigit h6;
      Some (16 * d1 + d2, 16 * d3 + d4, 16 * d5 + d6)%Z
  | _ => None
  end.

(** The tables the block cannot draw: no table at all, fewer than two
    columns, or no row. *)
Inductive unusable : option pd.DataFrame → Prop :=
| unusable_missing : unusable None
| unusable_columns df : length (pd.columns df) < 2 → unusable (Some df)
| unusable_empty df : pd.well_formed df 0 → unusable (Some df).

(** The trace of a run, when it drew one. *)
Definition trace_of (out : py.result (option go.Figure))
  : py.result (option go.Scatterpolar) :=
  do fig <- out; py.Ok (go.data <$> fig).

(** A check over all characters, by their eight bits. *)
Definition forall_bool (P : bool → bool) : bool := P true && P false.

Definition forall_ascii (P : ascii → bool) : bool :=
  forall_bool (fun b0 => forall_bool (fun b1 => forall_bool (fun b2 =>
  forall_bool (fun b3 => forall_bool (fun b4 => forall_bool (fun b5 =>
  forall_bool (fun b6 => forall_bool (fun b7 =>
    P (Ascii b0 b1 b2 b3 b4 b5 b6 b7))))))))).

(** [int16] reads a pair of hexadecimal digits as the byte they denote. *)
Definition pair_ok (a b : ascii) : bool :=
  match hexdigit a, hexdigit b with
  | Some da, Some db =>
      match py.int16 (String a (String b EmptyString)) with
      | py.Ok z => (z =? 16 * da + db)%Z && (0 <=? z)%Z && (z <=? 255)%Z
      | py.Raise _ => false
      end
  | _, _ => true
  end.

(** A hexadecimal digit is not the character [lstrip] removes. *)
Definition not_hash (a : ascii) : bool :=
  match hexdigit a with
  | Some _ => negb (py.mem a "#")
  | None => true
  end.

(** ** The rest of the page *)

Definition VERSION : string := "0.3.1".

(** Line 119: the sidebar, from the text of [sidebar.html]. *)
Definition sidebar_html (sidebar_file : string) : string :=
  py.replace sidebar_file "{VERSION}" VERSION.

(** Line 67: the table manual entry starts from. *)
Definition manual_df : pd.DataFrame :=
  {| pd.cols := [("Label", []); ("Value", [])] |}.

(** Lines 70-109: the example table; its second column is a column of
    floats. *)
#[warnings="-inexact-float"]
Definition example_df : pd.DataFrame :=
  {| pd.cols :=
       [("Skill",
         py.Str <$>
           ["Computer Vision"; "Prototyping"; "Classic ML"; "AE/VAE";
            "Visualization"; "Storytelling"; "BI"; "SQL"; "Deploy"; "MLOps";
            "Excel"; "Reporting"; "ViT"; "Diffusers"; "Python"; "NLP"]);
        ("Proficiency",
         (fun f => py.Num (py.Float f)) <$>
           [4.2; 4.7; 2.3; 4; 1.9; 2.4; 0.5; 0.6; 0.2; 0.3; 5; 1.6; 4; 2.4;
            3.4; 3]%float)] |}.

(** Lines 57-115: what [input_df] is bound to.  [uploaded_file] is the table
    read from the uploaded file, if there is one; [data_editor] is what the
    user's edits make of the table the editor is given. *)
Definition data_entry (o : EntryOption) (uploaded_file : option pd.DataFrame)
    (data_editor : pd.DataFrame → pd.DataFrame) : option pd.DataFrame :=
  match o with
  | UploadAnExcelFile => uploaded_file
  | AddDataManually => Some (data_editor manual_df)
  | PlayWithExampleData => Some (data_editor example_df)
  end.

(** The namespace of a run, from what the user did. *)
Definition page (o : EntryOption) (uploaded_file : option pd.DataFrame)
    (data_editor : pd.DataFrame → pd.DataFrame) (st : StyleConfig) : Env :=
  {| option_ := o;
     input_df := data_entry o uploaded_file data_editor;
     style := st |}.

(** The defaults [_reset] writes, as a mapping. *)
Definition reset_values : gmap string py.obj :=
  list_to_map
    [("title", py.Str "");
     ("hovertemplate", py.Str "%{theta}: %{r}");
     ("opacity", py.Num (py.Int 1));
     ("marker_opacity", py.Num (py.Int 1));
     ("line_smoothing", py.Num (py.Int 1));
     ("mode", py.List [py.Str "lines"; py.Str "markers"]);
     ("marker_color", py.Str "#636EFA");
     ("line_color", py.Str "#636EFA");
     ("fillcolor", py.Str "#636EFA");
     ("marker_size", py.Num (py.Int 6));
     ("marker_symbol", py.Str "circle");
     ("line_dash", py.Str "solid");
     ("line_shape", py.Str "linear");
     ("line_width", py.Num (py.Int 2));
     ("fill_opacity", py.Num (py.Float 0.5))].

(** A channel [rgba] can hold. *)
Definition channel_ok (out : py.result Z) : bool :=
  match out with
  | py.Ok z => (-15 <=? z)%Z && (z <=? 255)%Z
  | py.Raise _ => true
  end.

(** No character of [w] is one of [chars]. *)
Fixpoint avoids (w chars : string) : bool :=
  match w with
  | EmptyString => true
  | String c w' => negb (py.mem c chars) && avoids w' chars
  end.

(** A session that holds a title of its own and nothing else. *)
Definition titled_session : Session :=
  {| session_state := <["title" := py.Str "Old title"]> (∅ : gmap string py.obj);
     input_table := None |}.







(** * Properties *)

(** ** The reset callback *)

Lemma setitem_lookup key value s k :
  session_state (setitem key value s) !! k =
  if decide (key = k) then Some value else session_state s !! k.
Proof. unfold setitem; simpl. apply lookup_insert. Qed.

Lemma setitem_table key value s :
  input_table (setitem key value s) = input_table s.
Proof. reflexivity. Qed.

Lemma setitems_table keys value s :
  input_table (setitems keys value s) = input_table s.
Proof.
  revert s; induction keys as [|key keys IH]; intros s; simpl; [done|].
  unfold setitems in IH |- *; simpl. by rewrite IH.
Qed.

Lemma setitems_lookup_other keys value s k :
  k ∉ keys →
  session_state (setitems keys value s) !! k = session_state s !! k.
Proof.
  revert s; induction keys as [|key keys IH]; intros s Hk; [done|].
  apply not_elem_of_cons in Hk as [Hne Hk].
  unfold setitems in IH |- *; simpl. rewrite IH by done.
  rewrite setitem_lookup. by case_decide.
Qed.

(** C4: whatever the session held, after [_reset] every style key holds its
    default: title "", hovertemplate "%{theta}: %{r}", opacity,
    marker_opacity and line_smoothing 1, mode [lines, markers], the three
    colours "#636EFA", marker_size 6, marker_symbol "circle", line_dash
    "solid", line_shape "linear", line_width 2, fill_opacity 0.5.  The
    callback is a total function of the session. *)
Theorem reset_defaults (s : Session) :
  let m := session_state (_reset s) in
  m !! "title" = Some (py.Str "")
  ∧ m !! "hovertemplate" = Some (py.Str "%{theta}: %{r}")
  ∧ m !! "opacity" = Some (py.Num (py.Int 1))
  ∧ m !! "marker_opacity" = Some (py.Num (py.Int 1))
  ∧ m !! "line_smoothing" = Some (py.Num (py.Int 1))
  ∧ m !! "mode" = Some (py.List [py.Str "lines"; py.Str "markers"])
  ∧ m !! "marker_color" = Some (py.Str "#636EFA")
  ∧ m !! "line_color" = Some (py.Str "#636EFA")
  ∧ m !! "fillcolor" = Some (py.Str "#636EFA")
  ∧ m !! "marker_size" = Some (py.Num (py.Int 6))
  ∧ m !! "marker_symbol" = Some (py.Str "circle")
  ∧ m !! "line_dash" = Some (py.Str "solid")
  ∧ m !! "line_shape" = Some (py.Str "linear")
  ∧ m !! "line_width" = Some (py.Num (py.Int 2))
  ∧ m !! "fill_opacity" = Some (py.Num (py.Float 0.5))
  ∧ Forall (fun k => is_Some (m !! k)) style_keys.
Proof.
  cbv zeta. unfold _reset, setitems, style_keys; cbn [foldl].
  repeat match goal with |- _ ∧ _ => split end;
    try (rewrite !setitem_lookup; repeat (case_decide; try done)).
  repeat (apply Forall_cons; split;
          [rewrite !setitem_lookup; repeat (case_decide; try done);
           by eexists|]).
  apply Forall_nil_2.
Qed.

(** C8: [_reset] writes the fifteen style keys and nothing else: the table
    of the session is the one it was, and so is every other entry of the
    session mapping. *)
Theorem reset_keeps_table (s : Session) (k : string) :
  k ∉ style_keys →
  input_table (_reset s) = input_table s
  ∧ session_state (_reset s) !! k = session_state s !! k.
Proof.
  intros Hk. split; [reflexivity|].
  unfold _reset, setitems; cbn [foldl].
  unfold style_keys in Hk.
  rewrite !setitem_lookup.
  repeat (case_decide as Heq;
          [exfalso; apply Hk; rewrite <- Heq; set_solver|clear Heq]).
  reflexivity.
Qed.

Lemma reset_keeps_table_witness :
  input_table (_reset busy_session) = Some abc_table
  ∧ session_state (_reset busy_session) !! "visits"
    = Some (py.Num (py.Int 3)).
Proof.
  destruct (reset_keeps_table busy_session "visits") as [Ht Hk].
  - unfold style_keys. intros H.
    repeat (apply elem_of_cons in H as [H|H]; [discriminate H|]).
    by apply elem_of_nil in H.
  - split; [exact Ht|]. rewrite Hk. reflexivity.
Defined.

(** ** Selecting a column *)

Lemma filter_label_absent (l : list (string * list py.obj)) (k : string) :
  k ∉ l.*1 → filter (fun c => c.1 = k) l = [].
Proof.
  induction l as [|[k' d] l IH]; intros Hk; [done|].
  rewrite fmap_cons in Hk. apply not_elem_of_cons in Hk as [Hne Hk].
  rewrite filter_cons. simpl. rewrite decide_False by (intros ->; by apply Hne).
  auto.
Qed.

Lemma filter_label_head (l : list (string * list py.obj)) k d :
  k ∉ l.*1 → filter (fun c => c.1 = k) ((k, d) :: l) = [(k, d)].
Proof.
  intros Hk. rewrite filter_cons. simpl. rewrite decide_True by done.
  by rewrite filter_label_absent.
Qed.

Lemma getitem_first_column df c0 d0 rest :
  pd.cols df = (c0, d0) :: rest → NoDup (pd.columns df) →
  pd.getitem df c0 = py.Ok (pd.Series d0).
Proof.
  unfold pd.getitem, pd.columns. intros -> Hnd.
  rewrite fmap_cons in Hnd. apply NoDup_cons in Hnd as [Hk _].
  by rewrite filter_label_head.
Qed.

Lemma getitem_second_column df c0 d0 c1 d1 rest :
  pd.cols df = (c0, d0) :: (c1, d1) :: rest → NoDup (pd.columns df) →
  pd.getitem df c1 = py.Ok (pd.Series d1).
Proof.
  unfold pd.getitem, pd.columns. intros -> Hnd.
  rewrite !fmap_cons in Hnd. simpl in Hnd.
  apply NoDup_cons in Hnd as [Hk0 Hnd]. apply NoDup_cons in Hnd as [Hk1 _].
  rewrite filter_cons. simpl. rewrite decide_False.
  - by rewrite filter_label_head.
  - intros ->. apply Hk0. left.
Qed.

(** With one column only, selecting it cannot fail either: the failure is
    the one of [columns[1]]. *)
Lemma getitem_only_column df c0 d0 :
  pd.cols df = [(c0, d0)] → pd.getitem df c0 = py.Ok (pd.Series d0).
Proof.
  intros Hc. apply (getitem_first_column df c0 d0 []); [done|].
  unfold pd.columns. rewrite Hc. simpl. apply NoDup_singleton.
Qed.

(** ** The closed polygon *)

Section VisualizationProperties.

Variable repr_float : float -> string.

Lemma polygon_two_columns e df c0 labels c1 values rest :
  input_df e = Some df →
  pd.cols df = (c0, labels) :: (c1, values) :: rest →
  NoDup (pd.columns df) →
  polygon e =
    (do l0 <- py.getitem labels 0;
     do v0 <- py.getitem values 0;
     py.Ok (rev (labels ++ [l0]), rev (values ++ [v0]))).
Proof.
  intros He Hc Hnd. unfold polygon. rewrite He. simpl.
  unfold pd.columns at 1 2. rewrite Hc. simpl.
  rewrite (getitem_first_column _ _ _ _ Hc Hnd).
  rewrite (getitem_second_column _ _ _ _ _ _ Hc Hnd).
  reflexivity.
Qed.

Lemma polygon_drawn e df c0 l0 ls c1 v0 vs rest :
  input_df e = Some df →
  pd.cols df = (c0, l0 :: ls) :: (c1, v0 :: vs) :: rest →
  NoDup (pd.columns df) →
  polygon e = py.Ok (l0 :: rev (l0 :: ls), v0 :: rev (v0 :: vs)).
Proof.
  intros He Hc Hnd. rewrite (polygon_two_columns _ _ _ _ _ _ _ He Hc Hnd).
  simpl. by rewrite !rev_unit.
Qed.

Lemma visualization_drawn e t df c0 l0 ls c1 v0 vs rest :
  input_df e = Some df →
  pd.cols df = (c0, l0 :: ls) :: (c1, v0 :: vs) :: rest →
  NoDup (pd.columns df) →
  visualization repr_float e t =
    py.Ok (Some {| go.data :=
                     scatterpolar repr_float (style e) t
                       (l0 :: rev (l0 :: ls)) (v0 :: rev (v0 :: vs));
                   go.layout := layout e |}).
Proof.
  intros He Hc Hnd. unfold visualization, build.
  by rewrite (polygon_drawn _ _ _ _ _ _ _ _ _ He Hc Hnd).
Qed.

(** C1: on a table of [n >= 1] rows with distinct column labels and at
    least two columns, the block draws a figure whose angles and radii are
    the first and the second column, each with its first element appended
    and then reversed, hence [n + 1] points each. *)
Theorem build_closes_and_reverses e t df n c0 labels c1 values rest :
  input_df e = Some df →
  pd.cols df = (c0, labels) :: (c1, values) :: rest →
  pd.well_formed df n →
  1 ≤ n →
  ∃ fig l0 v0,
    visualization repr_float e t = py.Ok (Some fig)
    ∧ head labels = Some l0
    ∧ head values = Some v0
    ∧ go.theta (go.data fig) = rev (labels ++ [l0])
    ∧ go.r (go.data fig) = rev (values ++ [v0])
    ∧ length (go.theta (go.data fig)) = n + 1
    ∧ length (go.r (go.data fig)) = n + 1.
Proof.
  intros He Hc [Hnd Hlen] Hn. rewrite Hc in Hlen.
  apply Forall_cons in Hlen as [Hl Hlen].
  apply Forall_cons in Hlen as [Hv _]. simpl in Hl, Hv.
  destruct labels as [|l0 ls]; [simpl in Hl; lia|].
  destruct values as [|v0 vs]; [simpl in Hv; lia|].
  eexists _, l0, v0.
  split; [exact (visualization_drawn _ t _ _ _ _ _ _ _ _ He Hc Hnd)|].
  simpl. rewrite !rev_unit. simpl.
  rewrite !length_app, !length_rev. simpl in *.
  repeat split; lia.
Qed.

(** C10: on a table with a first row [(l0, v0)], the angles and the radii
    drawn have the same length, and each list starts and ends with the
    entry of the first row. *)
Theorem polygon_stays_closed e t df n c0 l0 ls c1 v0 vs rest :
  input_df e = Some df →
  pd.cols df = (c0, l0 :: ls) :: (c1, v0 :: vs) :: rest →
  pd.well_formed df n →
  ∃ fig,
    visualization repr_float e t = py.Ok (Some fig)
    ∧ length (go.theta (go.data fig)) = length (go.r (go.data fig))
    ∧ head (go.theta (go.data fig)) = Some l0
    ∧ last (go.theta (go.data fig)) = Some l0
    ∧ head (go.r (go.data fig)) = Some v0
    ∧ last (go.r (go.data fig)) = Some v0.
Proof.
  intros He Hc [Hnd Hlen]. rewrite Hc in Hlen.
  apply Forall_cons in Hlen as [Hl Hlen].
  apply Forall_cons in Hlen as [Hv _]. simpl in Hl, Hv.
  eexists.
  split; [exact (visualization_drawn _ t _ _ _ _ _ _ _ _ He Hc Hnd)|].
  cbn [go.data go.theta go.r scatterpolar].
  repeat split.
  - cbn [length]. rewrite !length_rev. cbn [length]. lia.
  - cbn [rev]. change (l0 :: rev ls ++ [l0]) with ((l0 :: rev ls) ++ [l0]).
    apply last_snoc.
  - cbn [rev]. change (v0 :: rev vs ++ [v0]) with ((v0 :: rev vs) ++ [v0]).
    apply last_snoc.
Qed.

(** C2: without a table, with fewer than two columns or with no row, the
    block raises nothing: it is left silently and no figure is drawn. *)
Theorem unusable_table_is_skipped e t :
  unusable (input_df e) → visualization repr_float e t = py.Ok None.
Proof.
  unfold visualization, build.
  destruct (input_df e) as [df|] eqn:He; intros Hu.
  - assert (Hshape :
      length (pd.columns df) < 2
      ∨ ∃ c0 c1 rest, pd.cols df = (c0, []) :: (c1, []) :: rest
                      ∧ NoDup (pd.columns df)).
    { inversion Hu as [|? Hlt|? [Hnd Hall]]; subst; [by left|].
      destruct (pd.cols df) as [|[c0 d0] [|[c1 d1] rest]] eqn:Hc.
      - left. unfold pd.columns. rewrite Hc. simpl. lia.
      - left. unfold pd.columns. rewrite Hc. simpl. lia.
      - right. apply Forall_cons in Hall as [H0 Hall].
        apply Forall_cons in Hall as [H1 _]. simpl in H0, H1.
        apply nil_length_inv in H0, H1. subst. by exists c0, c1, rest. }
    destruct Hshape as [Hlt|(c0 & c1 & rest & Hc & Hnd)].
    + unfold polygon. rewrite He. simpl.
      unfold pd.columns in Hlt |- *.
      destruct (pd.cols df) as [|[c0 d0] [|[c1 d1] rest]] eqn:Hc;
        simpl in Hlt; [reflexivity| |lia].
      simpl. by rewrite (getitem_only_column df c0 d0 Hc).
    + by rewrite (polygon_two_columns _ _ _ _ _ _ _ He Hc Hnd).
  - unfold polygon. rewrite He. reflexivity.
Qed.

End VisualizationProperties.

(** ** Reading the fill colour *)

Lemma forall_bool_spec (P : bool → bool) :
  forall_bool P = true → ∀ b, P b = true.
Proof.
  unfold forall_bool. intros H b.
  apply andb_prop in H as [Ht Hf]. by destruct b.
Qed.

Lemma forall_ascii_spec (P : ascii → bool) :
  forall_ascii P = true → ∀ a, P a = true.
Proof.
  unfold forall_ascii. intros H [b0 b1 b2 b3 b4 b5 b6 b7].
  pose proof (forall_bool_spec _ H b0) as H0; cbv beta in H0.
  pose proof (forall_bool_spec _ H0 b1) as H1; cbv beta in H1.
  pose proof (forall_bool_spec _ H1 b2) as H2; cbv beta in H2.
  pose proof (forall_bool_spec _ H2 b3) as H3; cbv beta in H3.
  pose proof (forall_bool_spec _ H3 b4) as H4; cbv beta in H4.
  pose proof (forall_bool_spec _ H4 b5) as H5; cbv beta in H5.
  pose proof (forall_bool_spec _ H5 b6) as H6; cbv beta in H6.
  exact (forall_bool_spec _ H6 b7).
Qed.

Lemma pair_ok_all (a b : ascii) : pair_ok a b = true.
Proof.
  revert b. apply forall_ascii_spec. revert a. apply forall_ascii_spec.
  vm_compute. reflexivity.
Qed.

Lemma int16_hex_pair a b da db :
  hexdigit a = Some da → hexdigit b = Some db →
  py.int16 (String a (String b EmptyString)) = py.Ok (16 * da + db)%Z
  ∧ (0 ≤ 16 * da + db ≤ 255)%Z.
Proof.
  intros Ha Hb. pose proof (pair_ok_all a b) as H.
  unfold pair_ok in H. rewrite Ha, Hb in H.
  destruct (py.int16 _) as [z|]; [|discriminate].
  apply andb_prop in H as [H Hhi]. apply andb_prop in H as [Heq Hlo].
  apply Z.eqb_eq in Heq. apply Z.leb_le in Hlo, Hhi. subst z.
  split; [reflexivity|lia].
Qed.

Lemma hexdigit_not_hash h d : hexdigit h = Some d → py.mem h "#" = false.
Proof.
  intros Hh. assert (H : not_hash h = true).
  { revert h Hh. intros h _. revert h. apply forall_ascii_spec.
    vm_compute. reflexivity. }
  unfold not_hash in H. rewrite Hh in H. by apply negb_true_iff in H.
Qed.

Lemma lstrip_color h d s :
  hexdigit h = Some d →
  py.lstrip (String "#" (String h s)) "#" = String h s.
Proof.
  intros Hh. cbn [py.lstrip].
  change (py.mem "#" "#") with true. cbv iota.
  by rewrite (hexdigit_not_hash h d Hh).
Qed.

Lemma color_channels_inv fc r g b :
  color_channels fc = Some (r, g, b) →
  ∃ h1 h2 h3 h4 h5 h6 d1 d2 d3 d4 d5 d6,
    fc = String "#" (String h1 (String h2 (String h3 (String h4
           (String h5 (String h6 EmptyString))))))
    ∧ hexdigit h1 = Some d1 ∧ hexdigit h2 = Some d2
    ∧ hexdigit h3 = Some d3 ∧ hexdigit h4 = Some d4
    ∧ hexdigit h5 = Some d5 ∧ hexdigit h6 = Some d6
    ∧ r = (16 * d1 + d2)%Z ∧ g = (16 * d3 + d4)%Z ∧ b = (16 * d5 + d6)%Z.
Proof.
  intros H.
  destruct fc as [|c0 [|h1 [|h2 [|h3 [|h4 [|h5 [|h6 [|? ?]]]]]]]];
    try (destruct c0 as [[] [] [] [] [] [] [] []]; discriminate H).
  - discriminate H.
  - destruct c0 as [[] [] [] [] [] [] [] []]; try discriminate H.
    cbn in H.
    destruct (hexdigit h1) as [d1|] eqn:E1; [|discriminate H].
    destruct (hexdigit h2) as [d2|] eqn:E2; [|discriminate H].
    destruct (hexdigit h3) as [d3|] eqn:E3; [|discriminate H].
    destruct (hexdigit h4) as [d4|] eqn:E4; [|discriminate H].
    destruct (hexdigit h5) as [d5|] eqn:E5; [|discriminate H].
    destruct (hexdigit h6) as [d6|] eqn:E6; [|discriminate H].
    cbn in H. injection H as <- <- <-.
    by exists h1, h2, h3, h4, h5, h6, d1, d2, d3, d4, d5, d6.
Qed.

Lemma rgba_of_color fc o r g b :
  color_channels fc = Some (r, g, b) →
  rgba fc o = py.Ok [py.Int r; py.Int g; py.Int b; o]
  ∧ (0 ≤ r ≤ 255)%Z ∧ (0 ≤ g ≤ 255)%Z ∧ (0 ≤ b ≤ 255)%Z.
Proof.
  intros H.
  apply color_channels_inv in H
    as (h1 & h2 & h3 & h4 & h5 & h6 & d1 & d2 & d3 & d4 & d5 & d6
        & -> & E1 & E2 & E3 & E4 & E5 & E6 & -> & -> & ->).
  destruct (int16_hex_pair _ _ _ _ E1 E2) as [P1 B1].
  destruct (int16_hex_pair _ _ _ _ E3 E4) as [P2 B2].
  destruct (int16_hex_pair _ _ _ _ E5 E6) as [P3 B3].
  split; [|done].
  unfold rgba. rewrite (lstrip_color _ _ _ E1).
  cbn [py.comprehension].
  change (py.slice (String h1 (String h2 (String h3 (String h4
            (String h5 (String h6 EmptyString)))))) 0 (0 + 2))
    with (String h1 (String h2 EmptyString)).
  change (py.slice (String h1 (String h2 (String h3 (String h4
            (String h5 (String h6 EmptyString)))))) 2 (2 + 2))
    with (String h3 (String h4 EmptyString)).
  change (py.slice (String h1 (String h2 (String h3 (String h4
            (String h5 (String h6 EmptyString)))))) 4 (4 + 2))
    with (String h5 (String h6 EmptyString)).
  rewrite P1, P2, P3. reflexivity.
Qed.






(** C5: for a colour [#RRGGBB] and any fill opacity, [rgba] is the three
    bytes the pairs of digits denote, followed by the opacity. *)
Theorem rgba_byte_decomposition (fc : string) (o : py.num) (r g b : Z) :
  color_channels fc = Some (r, g, b) →
  rgba fc o = py.Ok [py.Int r; py.Int g; py.Int b; o]
  ∧ (0 ≤ r ≤ 255)%Z ∧ (0 ≤ g ≤ 255)%Z ∧ (0 ≤ b ≤ 255)%Z.
Proof. apply rgba_of_color. Qed.

(** C9: for a colour of the colour picker and any fill opacity, [rgba] is a
    tuple of four elements, hence true, and the fill colour of the trace is
    "RGBA" followed by that tuple: the hardcoded string of the other branch
    is never chosen. *)
Theorem fallback_branch_unreachable (repr_float : float → string) (e : Env)
    (rgb : Z * Z * Z) :
  color_channels (fillcolor (style e)) = Some rgb →
  ∃ t,
    rgba (fillcolor (style e)) (fill_opacity (style e)) = py.Ok t
    ∧ length t = 4
    ∧ py.truthy t = true
    ∧ fillcolor_of repr_float t
      = "RGBA" +:+ py.str_tuple (py.repr_num repr_float <$> t)
    ∧ ∀ fig, script repr_float e = py.Ok (Some fig) →
        go.fillcolor (go.data fig)
        = "RGBA" +:+ py.str_tuple (py.repr_num repr_float <$> t).
Proof.
  destruct rgb as [[r g] b]. intros Hc.
  destruct (rgba_of_color _ (fill_opacity (style e)) _ _ _ Hc) as [Hr _].
  eexists. split; [exact Hr|]. repeat split.
  intros fig. unfold script. rewrite Hr. cbn [py.bind].
  unfold visualization, build.
  destruct (polygon e) as [lv|ex]; simpl.
  - by intros [= <-].
  - destruct ex; discriminate.
Qed.







(** ** What the figure depends on *)

Lemma polygon_ext e1 e2 : input_df e1 = input_df e2 → polygon e1 = polygon e2.
Proof. unfold polygon. by intros ->. Qed.

Lemma layout_ext e1 e2 :
  style e1 = style e2 → is_example (option_ e1) = is_example (option_ e2) →
  layout e1 = layout e2.
Proof. unfold layout. by intros -> ->. Qed.

(** C6, as the code has it: the figure is a function of the table, the style
    and the radio choice.  Two runs on the same table and style draw the same
    trace; they draw the same figure when they also agree on whether the
    example option is chosen, which decides the title. *)
Theorem figure_determined (repr_float : float → string) (e1 e2 : Env) :
  input_df e1 = input_df e2 →
  style e1 = style e2 →
  trace_of (script repr_float e1) = trace_of (script repr_float e2)
  ∧ (is_example (option_ e1) = is_example (option_ e2) →
     script repr_float e1 = script repr_float e2).
Proof.
  intros Hd Hs. unfold script, visualization, build.
  rewrite (polygon_ext _ _ Hd), Hs. split.
  - destruct (rgba _ _) as [t|ex]; [|reflexivity]. cbn [py.bind].
    destruct (polygon e2) as [lv|ex]; [reflexivity|].
    simpl. by destruct ex.
  - intros Ho. by rewrite (layout_ext _ _ Hs Ho).
Qed.

(** C7: whenever the block draws a figure, the mode of its trace is "none"
    for an empty selection and the selected modes joined by "+" otherwise,
    its hover template is the one of the style followed by
    "<extra></extra>", and its fill is "toself". *)
Theorem trace_mode_hover_fill (repr_float : float → string) (e : Env)
    (t : list py.num) (fig : go.Figure) :
  visualization repr_float e t = py.Ok (Some fig) →
  (mode (style e) = [] → go.mode (go.data fig) = "none")
  ∧ (mode (style e) ≠ [] →
     go.mode (go.data fig) = String.concat "+" (mode (style e)))
  ∧ go.hovertemplate (go.data fig)
    = hovertemplate (style e) +:+ "<extra></extra>"
  ∧ go.fill (go.data fig) = "toself".
Proof.
  unfold visualization, build.
  destruct (polygon e) as [lv|ex]; simpl.
  - intros [= <-]. simpl. repeat split.
    + by intros ->.
    + by destruct (mode (style e)).
  - destruct ex; discriminate.
Qed.

(** ** The statements at concrete inputs *)

Lemma abc_table_well_formed : pd.well_formed abc_table 3.
Proof.
  split.
  - unfold pd.columns. simpl. apply NoDup_cons. split; [|apply NoDup_singleton].
    intros H. apply list_elem_of_singleton in H. discriminate H.
  - unfold abc_table. simpl. repeat constructor.
Qed.

Lemma empty_table_well_formed : pd.well_formed empty_table 0.
Proof.
  split.
  - unfold pd.columns. simpl. apply NoDup_cons. split; [|apply NoDup_singleton].
    intros H. apply list_elem_of_singleton in H. discriminate H.
  - unfold empty_table. simpl. repeat constructor.
Qed.

(** The scenario of C1: rows (A,1), (B,2), (C,3) draw the angles A, C, B, A
    and the radii 1, 3, 2, 1. *)
Lemma build_closes_and_reverses_abc :
  pd.well_formed abc_table 3
  ∧ ∃ fig,
      visualization repr_slider (abc_env AddDataManually default_style)
        default_rgba = py.Ok (Some fig)
      ∧ go.theta (go.data fig)
        = [py.Str "A"; py.Str "C"; py.Str "B"; py.Str "A"]
      ∧ go.r (go.data fig)
        = [py.Num (py.Int 1); py.Num (py.Int 3); py.Num (py.Int 2);
           py.Num (py.Int 1)]
      ∧ length (go.theta (go.data fig)) = 4.
Proof.
  split; [exact abc_table_well_formed|].
  destruct (build_closes_and_reverses repr_slider
              (abc_env AddDataManually default_style) default_rgba
              abc_table 3 _ _ _ _ _ eq_refl eq_refl abc_table_well_formed)
    as (fig & l0 & v0 & Hfig & Hl & Hv & Ht & Hr & Hn & _); [lia|].
  injection Hl as <-. injection Hv as <-.
  exists fig. split; [exact Hfig|]. rewrite Ht, Hr, <- Ht, Hn. done.
Defined.

Lemma polygon_stays_closed_abc :
  ∃ fig,
    visualization repr_slider (abc_env AddDataManually default_style)
      default_rgba = py.Ok (Some fig)
    ∧ length (go.theta (go.data fig)) = length (go.r (go.data fig))
    ∧ head (go.theta (go.data fig)) = Some (py.Str "A")
    ∧ last (go.theta (go.data fig)) = Some (py.Str "A")
    ∧ head (go.r (go.data fig)) = Some (py.Num (py.Int 1))
    ∧ last (go.r (go.data fig)) = Some (py.Num (py.Int 1)).
Proof.
  exact (polygon_stays_closed repr_slider
           (abc_env AddDataManually default_style) default_rgba
           abc_table 3 _ _ _ _ _ _ _ eq_refl eq_refl abc_table_well_formed).
Defined.

Lemma unusable_table_is_skipped_cases :
  visualization repr_slider (env_of UploadAnExcelFile None) default_rgba
  = py.Ok None
  ∧ visualization repr_slider
      (env_of UploadAnExcelFile (Some one_column_table)) default_rgba
    = py.Ok None
  ∧ visualization repr_slider
      (env_of AddDataManually (Some empty_table)) default_rgba
    = py.Ok None.
Proof.
  split; [|split]; apply unusable_table_is_skipped; simpl.
  - apply unusable_missing.
  - apply unusable_columns. unfold pd.columns. simpl. lia.
  - apply unusable_empty. exact empty_table_well_formed.
Defined.

Lemma rgba_byte_decomposition_636EFA :
  color_channels "#636EFA" = Some (99, 110, 250)%Z
  ∧ rgba "#636EFA" (py.Float 0.5)
    = py.Ok [py.Int 99; py.Int 110; py.Int 250; py.Float 0.5].
Proof.
  split; [reflexivity|].
  exact (proj1 (rgba_byte_decomposition "#636EFA" (py.Float 0.5)
                  99 110 250 eq_refl)).
Defined.

Lemma fallback_branch_unreachable_default :
  ∃ t,
    rgba "#636EFA" (py.Float 0.5) = py.Ok t
    ∧ length t = 4
    ∧ py.truthy t = true
    ∧ fillcolor_of repr_slider t = "RGBA(99, 110, 250, 0.5)".
Proof.
  destruct (fallback_branch_unreachable repr_slider
              (abc_env AddDataManually default_style) (99, 110, 250)%Z
              eq_refl) as (t & Ht & Hlen & Htrue & Hfill & _).
  exists t. repeat split; try assumption.
  rewrite Hfill. cbn in Ht. injection Ht as <-. reflexivity.
Defined.



(** Against C6 as stated: the same table and the same style, under the
    example option and under the upload option, draw figures with different
    titles. *)
Lemma option_changes_the_figure :
  ∃ fig1 fig2,
    input_df (abc_env PlayWithExampleData titled_style)
    = input_df (abc_env UploadAnExcelFile titled_style)
    ∧ style (abc_env PlayWithExampleData titled_style)
      = style (abc_env UploadAnExcelFile titled_style)
    ∧ script repr_slider (abc_env PlayWithExampleData titled_style)
      = py.Ok (Some fig1)
    ∧ script repr_slider (abc_env UploadAnExcelFile titled_style)
      = py.Ok (Some fig2)
    ∧ go.text (go.title (go.layout fig1)) = "Job Requirements"
    ∧ go.text (go.title (go.layout fig2)) = "My chart"
    ∧ fig1 ≠ fig2.
Proof.
  eexists _, _. split; [reflexivity|]. split; [reflexivity|].
  split; [vm_compute; reflexivity|]. split; [vm_compute; reflexivity|].
  split; [reflexivity|]. split; [reflexivity|].
  intros H. apply (f_equal (fun f => go.text (go.title (go.layout f)))) in H.
  discriminate H.
Qed.

Lemma figure_determined_upload_manual :
  script repr_slider (abc_env UploadAnExcelFile titled_style)
  = script repr_slider (abc_env AddDataManually titled_style)
  ∧ trace_of (script repr_slider (abc_env PlayWithExampleData titled_style))
    = trace_of (script repr_slider (abc_env UploadAnExcelFile titled_style)).
Proof.
  split.
  - exact (proj2 (figure_determined repr_slider
                    (abc_env UploadAnExcelFile titled_style)
                    (abc_env AddDataManually titled_style) eq_refl eq_refl)
             eq_refl).
  - exact (proj1 (figure_determined repr_slider
                    (abc_env PlayWithExampleData titled_style)
                    (abc_env UploadAnExcelFile titled_style) eq_refl eq_refl)).
Defined.

Lemma trace_mode_hover_fill_default :
  ∃ fig,
    visualization repr_slider (abc_env AddDataManually default_style)
      default_rgba = py.Ok (Some fig)
    ∧ go.mode (go.data fig) = "lines+markers"
    ∧ go.hovertemplate (go.data fig) = "%{theta}: %{r}<extra></extra>"
    ∧ go.fill (go.data fig) = "toself".
Proof.
  pose proof (visualization_drawn repr_slider
                (abc_env AddDataManually default_style) default_rgba
                abc_table _ _ _ _ _ _ _ eq_refl eq_refl
                (proj1 abc_table_well_formed)) as Hfig.
  eexists. split; [exact Hfig|].
  destruct (trace_mode_hover_fill repr_slider _ _ _ Hfig)
    as (_ & Hmode & Hhover & Hfill).
  split; [exact (Hmode ltac:(discriminate))|]. split; assumption.
Defined.

(** * Further properties *)

(** ** What the guarded block lets out *)

Lemma py_getitem_raises {A} (l : list A) i ex :
  py.getitem l i = py.Raise ex → ex = py.IndexError.
Proof. unfold py.getitem. destruct (l !! i); by intros [= <-]. Qed.

Lemma py_getitem_elem {A} (l : list A) i a :
  py.getitem l i = py.Ok a → a ∈ l.
Proof.
  unfold py.getitem. destruct (l !! i) as [a'|] eqn:E; intros [= <-].
  by apply list_elem_of_lookup_2 in E.
Qed.

(** A label taken from [df.columns] selects something: no [KeyError]. *)
Lemma getitem_of_column df c :
  c ∈ pd.columns df → ∃ sel, pd.getitem df c = py.Ok sel.
Proof.
  unfold pd.columns, pd.getitem. intros Hc.
  apply list_elem_of_fmap in Hc as ([c' d] & -> & Hin).
  destruct (filter _ (pd.cols df)) as [|x [|y l]] eqn:E; eauto.
  assert (H : (c', d) ∈ filter (fun c => c.1 = (c', d).1) (pd.cols df))
    by (by apply list_elem_of_filter).
  rewrite E in H. by apply elem_of_nil in H.
Qed.

(** With a table bound, reading it raises nothing but [IndexError]. *)
Lemma polygon_raises_bound e df ex :
  input_df e = Some df → polygon e = py.Raise ex → ex = py.IndexError.
Proof.
  intros He. unfold polygon. rewrite He. simpl.
  destruct (py.getitem (pd.columns df) 0) as [c0|e0] eqn:E0; simpl;
    [|intros [= <-]; by eapply py_getitem_raises].
  destruct (getitem_of_column df c0) as [sel0 ->];
    [by eapply py_getitem_elem|]. simpl.
  destruct (py.getitem (pd.columns df) 1) as [c1|e1] eqn:E1; simpl;
    [|intros [= <-]; by eapply py_getitem_raises].
  destruct (getitem_of_column df c1) as [sel1 ->];
    [by eapply py_getitem_elem|]. simpl.
  destruct (py.getitem (pd.to_list sel0) 0) as [l0|e2] eqn:E2; simpl;
    [|intros [= <-]; by eapply py_getitem_raises].
  destruct (py.getitem (pd.to_list sel1) 0) as [v0|e3] eqn:E3; simpl;
    [discriminate|intros [= <-]; by eapply py_getitem_raises].
Qed.

(** X1: reading the table (lines 446-450) fails in two ways only, and both
    are on the list of [contextlib.suppress]: with [NameError] when no table
    is bound, with [IndexError] when one is.  A label taken from
    [df.columns] always selects something, so there is no [KeyError]; a
    failed reading therefore always ends the block silently. *)
Theorem table_reading_raises_suppressed (e : Env) (ex : py.exn) :
  polygon e = py.Raise ex →
  ((ex = py.NameError ∧ input_df e = None)
   ∨ (ex = py.IndexError ∧ ∃ df, input_df e = Some df))
  ∧ py.suppress [py.IndexError; py.NameError] (polygon e) = py.Ok None.
Proof.
  intros H.
  assert (Hcause : (ex = py.NameError ∧ input_df e = None)
                   ∨ (ex = py.IndexError ∧ ∃ df, input_df e = Some df)).
  { destruct (input_df e) as [df|] eqn:He.
    - right. split; [by eapply polygon_raises_bound|by exists df].
    - left. unfold polygon in H. rewrite He in H. simpl in H.
      by injection H as <-. }
  split; [exact Hcause|]. rewrite H.
  by destruct Hcause as [[-> _]|[-> _]].
Qed.

(** X3: on a table with distinct column labels and columns of one length,
    the block draws nothing only when the table is missing, has fewer than
    two columns or has no row. *)
Theorem skipped_only_if_unusable (repr_float : float → string) (e : Env)
    (t : list py.num) :
  (∀ df, input_df e = Some df → ∃ n, pd.well_formed df n) →
  visualization repr_float e t = py.Ok None →
  unusable (input_df e).
Proof.
  intros Hwf Hskip.
  destruct (input_df e) as [df|] eqn:He; [|constructor].
  destruct (Hwf df eq_refl) as [n [Hnd Hlen]].
  destruct (pd.cols df) as [|[c0 labels] [|[c1 values] rest]] eqn:Hc.
  - apply unusable_columns. unfold pd.columns. rewrite Hc. simpl. lia.
  - apply unusable_columns. unfold pd.columns. rewrite Hc. simpl. lia.
  - pose proof Hlen as Hlen'.
    apply Forall_cons in Hlen' as [Hl Hlen'].
    apply Forall_cons in Hlen' as [Hv _]. simpl in Hl, Hv.
    destruct labels as [|l0 ls].
    + simpl in Hl. subst n. apply unusable_empty. split; [done|].
      by rewrite Hc.
    + destruct values as [|v0 vs]; [simpl in Hl, Hv; congruence|].
      rewrite (visualization_drawn repr_float e t df _ _ _ _ _ _ _ He Hc Hnd)
        in Hskip.
      discriminate Hskip.
Qed.

(** ** The points *)

Lemma combine_snoc {A B} (a : list A) (b : list B) x y :
  length a = length b →
  combine (a ++ [x]) (b ++ [y]) = combine a b ++ [(x, y)].
Proof.
  revert b. induction a as [|a0 a IH]; intros [|b0 b] Hlen;
    simpl in *; try discriminate; [done|].
  f_equal. apply IH. lia.
Qed.

Lemma combine_rev {A B} (a : list A) (b : list B) :
  length a = length b → combine (rev a) (rev b) = rev (combine a b).
Proof.
  revert b. induction a as [|a0 a IH]; intros [|b0 b] Hlen;
    simpl in *; try discriminate; [done|].
  rewrite combine_snoc by (rewrite !length_rev; lia).
  f_equal. apply IH. lia.
Qed.

(** X4: the reversal keeps each label with its value: read as pairs, the
    points drawn are the rows followed by the first row again, reversed. *)
Theorem points_stay_paired (repr_float : float → string) (e : Env)
    (t : list py.num) df n c0 l0 ls c1 v0 vs rest :
  input_df e = Some df →
  pd.cols df = (c0, l0 :: ls) :: (c1, v0 :: vs) :: rest →
  pd.well_formed df n →
  ∃ fig,
    visualization repr_float e t = py.Ok (Some fig)
    ∧ combine (go.theta (go.data fig)) (go.r (go.data fig))
      = rev (combine (l0 :: ls) (v0 :: vs) ++ [(l0, v0)]).
Proof.
  intros He Hc [Hnd Hlen]. rewrite Hc in Hlen.
  apply Forall_cons in Hlen as [Hl Hlen].
  apply Forall_cons in Hlen as [Hv _]. simpl in Hl, Hv.
  eexists.
  split; [exact (visualization_drawn _ e t _ _ _ _ _ _ _ _ He Hc Hnd)|].
  cbn [go.data go.theta go.r scatterpolar].
  rewrite rev_unit.
  rewrite <- (combine_rev (l0 :: ls) (v0 :: vs)) by (simpl; lia).
  reflexivity.
Qed.

(** X5: the points depend on the table alone: two runs on the same table
    that both draw a figure draw the same angles and radii, whatever their
    styles, radio choices and fill colours. *)
Theorem points_depend_on_table (rf1 rf2 : float → string) (e1 e2 : Env)
    (t1 t2 : list py.num) (fig1 fig2 : go.Figure) :
  input_df e1 = input_df e2 →
  visualization rf1 e1 t1 = py.Ok (Some fig1) →
  visualization rf2 e2 t2 = py.Ok (Some fig2) →
  go.theta (go.data fig1) = go.theta (go.data fig2)
  ∧ go.r (go.data fig1) = go.r (go.data fig2).
Proof.
  intros Hd. unfold visualization, build. rewrite (polygon_ext _ _ Hd).
  destruct (polygon e2) as [lv|ex]; simpl.
  - by intros [= <-] [= <-].
  - destruct ex; discriminate.
Qed.

(** X6: the title of a figure is "Job Requirements" under the example
    option, whatever the title field holds, and the title field under the
    other options; it is centred. *)
Theorem title_rule (repr_float : float → string) (e : Env)
    (t : list py.num) (fig : go.Figure) :
  visualization repr_float e t = py.Ok (Some fig) →
  (option_ e = PlayWithExampleData →
   go.text (go.title (go.layout fig)) = "Job Requirements")
  ∧ (option_ e ≠ PlayWithExampleData →
     go.text (go.title (go.layout fig)) = title (style e))
  ∧ go.x (go.title (go.layout fig)) = 0.5%float
  ∧ go.xanchor (go.title (go.layout fig)) = "center".
Proof.
  unfold visualization, build.
  destruct (polygon e) as [lv|ex]; simpl; [|destruct ex; discriminate].
  intros [= <-]. simpl. repeat split.
  - by intros ->.
  - by destruct (option_ e).
Qed.

(** ** What [rgba] reads *)

Lemma slice_of_first_six s :
  py.slice (String.substring 0 6 s) 0 (0 + 2) = py.slice s 0 (0 + 2)
  ∧ py.slice (String.substring 0 6 s) 2 (2 + 2) = py.slice s 2 (2 + 2)
  ∧ py.slice (String.substring 0 6 s) 4 (4 + 2) = py.slice s 4 (4 + 2).
Proof.
  destruct s as [|c1 [|c2 [|c3 [|c4 [|c5 [|c6 [|c7 s]]]]]]]; repeat split.
Qed.

Lemma rgba_from_slices fc o :
  rgba fc o =
    (do c0 <- py.int16 (py.slice (py.lstrip fc "#") 0 (0 + 2));
     do c2 <- py.int16 (py.slice (py.lstrip fc "#") 2 (2 + 2));
     do c4 <- py.int16 (py.slice (py.lstrip fc "#") 4 (4 + 2));
     py.Ok [py.Int c0; py.Int c2; py.Int c4; o]).
Proof.
  unfold rgba. cbn [py.comprehension].
  destruct (py.int16 (py.slice _ 0 _)); [|reflexivity].
  destruct (py.int16 (py.slice _ 2 _)); [|reflexivity].
  destruct (py.int16 (py.slice _ 4 _)); reflexivity.
Qed.

(** X7: [rgba] reads the six characters that follow the leading [#]s and
    nothing else: two strings that agree there give the same result, be it a
    tuple or an exception. *)
Theorem rgba_reads_six_characters (fc fc' : string) (o : py.num) :
  String.substring 0 6 (py.lstrip fc "#")
  = String.substring 0 6 (py.lstrip fc' "#") →
  rgba fc o = rgba fc' o.
Proof.
  intros H. rewrite !rgba_from_slices.
  destruct (slice_of_first_six (py.lstrip fc "#")) as (<- & <- & <-).
  destruct (slice_of_first_six (py.lstrip fc' "#")) as (<- & <- & <-).
  by rewrite H.
Qed.

Lemma substring_length_le n m s : String.length (String.substring n m s) ≤ m.
Proof.
  revert n m. induction s as [|c s IH]; intros [|n] [|m]; simpl; try lia.
  - specialize (IH 0 m). lia.
  - apply (IH n 0).
  - apply (IH n (S m)).
Qed.

Lemma int16_short_range s :
  String.length s ≤ 2 → channel_ok (py.int16 s) = true.
Proof.
  destruct s as [|a [|b [|c s]]]; simpl String.length; intros Hlen.
  - reflexivity.
  - revert a. apply forall_ascii_spec. vm_compute. reflexivity.
  - revert b. apply forall_ascii_spec. revert a. apply forall_ascii_spec.
    vm_compute. reflexivity.
  - lia.
Qed.

Lemma slice_channel_range s i z :
  py.int16 (py.slice s i (i + 2)) = py.Ok z → (-15 ≤ z ≤ 255)%Z.
Proof.
  intros H. pose proof (int16_short_range (py.slice s i (i + 2))) as Hr.
  rewrite H in Hr. simpl in Hr.
  assert (Hlen : String.length (py.slice s i (i + 2)) ≤ 2).
  { unfold py.slice. replace (i + 2 - i) with 2 by lia.
    apply substring_length_le. }
  specialize (Hr Hlen). apply andb_prop in Hr as [Hlo Hhi].
  apply Z.leb_le in Hlo, Hhi. lia.
Qed.

(** X8: whatever the fill colour string, when [rgba] returns, it returns
    three integers and the opacity, and each integer lies between -15 and
    255: no channel exceeds a byte, and a malformed string can at worst give
    a small negative one. *)
Theorem channels_in_range (fc : string) (o : py.num) (t : list py.num) :
  rgba fc o = py.Ok t →
  ∃ a b c,
    t = [py.Int a; py.Int b; py.Int c; o]
    ∧ (-15 ≤ a ≤ 255)%Z ∧ (-15 ≤ b ≤ 255)%Z ∧ (-15 ≤ c ≤ 255)%Z.
Proof.
  rewrite rgba_from_slices.
  destruct (py.int16 (py.slice _ 0 _)) as [a|] eqn:Ea; [|discriminate].
  destruct (py.int16 (py.slice _ 2 _)) as [b|] eqn:Eb; [|discriminate].
  destruct (py.int16 (py.slice _ 4 _)) as [c|] eqn:Ec; [|discriminate].
  simpl. intros [= <-]. exists a, b, c.
  split; [reflexivity|].
  split; [by eapply slice_channel_range|].
  split; by eapply slice_channel_range.
Qed.

(** ** The reset callback, as a whole *)

Lemma session_eq (a b : Session) :
  session_state a = session_state b → input_table a = input_table b → a = b.
Proof. destruct a, b; simpl. by intros -> ->. Qed.

(** [_reset] lays its values over the session mapping. *)
Lemma reset_as_union s :
  session_state (_reset s) = reset_values ∪ session_state s.
Proof.
  apply map_eq. intros k.
  unfold _reset, setitems; cbn [foldl]. rewrite !setitem_lookup.
  rewrite lookup_union. unfold reset_values. cbn [list_to_map foldr fst snd].
  rewrite !lookup_insert, lookup_empty.
  repeat (case_decide;
          [subst k; destruct (session_state s !! _); reflexivity|]).
  by destruct (session_state s !! k).
Qed.

Lemma reset_values_keys k : k ∈ style_keys ↔ is_Some (reset_values !! k).
Proof.
  unfold style_keys, reset_values. cbn [list_to_map foldr fst snd].
  rewrite !lookup_insert, lookup_empty. split.
  - intros H.
    repeat (apply elem_of_cons in H as [->|H];
            [repeat (case_decide; simplify_eq; try done); by eexists|]).
    by apply elem_of_nil in H.
  - repeat (case_decide; [subst k; intros _; repeat constructor|]).
    by intros [? ?].
Qed.

(** X9: resetting twice is resetting once. *)
Theorem reset_idempotent (s : Session) : _reset (_reset s) = _reset s.
Proof.
  apply session_eq; [|reflexivity].
  rewrite !reset_as_union.
  by rewrite (assoc_L (∪)), (idemp_L (∪)).
Qed.

(** X10: [_reset] forgets whatever was written to a style key before it:
    the session after the reset does not depend on that value. *)
Theorem reset_absorbs_style_write (s : Session) (k : string) (v : py.obj) :
  k ∈ style_keys → _reset (setitem k v s) = _reset s.
Proof.
  intros Hk. apply session_eq; [|reflexivity].
  rewrite !reset_as_union. simpl.
  apply reset_values_keys in Hk as [d Hd].
  apply map_eq. intros k'. rewrite !lookup_union.
  destruct (decide (k = k')) as [<-|Hne].
  - rewrite Hd, lookup_insert_eq.
    by destruct (session_state s !! k).
  - by rewrite lookup_insert_ne.
Qed.

(** X11: [_reset] removes no key of the session mapping, and the keys it
    adds are style keys: afterwards the keys are the former ones and the
    fifteen style keys. *)
Theorem reset_keys (s : Session) (k : string) :
  is_Some (session_state (_reset s) !! k)
  ↔ k ∈ style_keys ∨ is_Some (session_state s !! k).
Proof.
  rewrite reset_as_union, reset_values_keys, lookup_union.
  destruct (reset_values !! k), (session_state s !! k); simpl;
    split; eauto; intros [[? ?]|[? ?]]; done.
Qed.

(** ** The sidebar *)

Lemma prefix_cons a p b s :
  String.prefix (String a p) (String b s)
  = if ascii_dec a b then String.prefix p s else false.
Proof. reflexivity. Qed.

Lemma contains_cons c s p :
  py.contains (String c s) p
  = String.prefix p (String c s) || py.contains s p.
Proof. reflexivity. Qed.

Lemma replace_from_cons c s old new :
  py.replace_from 0 (String c s) old new
  = if String.prefix old (String c s)
    then new +:+ py.replace_from (String.length old - 1) s old new
    else String c (py.replace_from 0 s old new).
Proof. reflexivity. Qed.

(** A text without the character "0" that starts the result of the
    substitution starts the original as well: up to the first replaced
    occurrence, the characters are copied. *)
Lemma prefix_replaced w s :
  avoids w "0" = true →
  String.prefix w (py.replace_from 0 s "{VERSION}" VERSION) = true →
  String.prefix w s = true.
Proof.
  revert s. induction w as [|a w IH]; intros s Hw Hp; [by destruct s|].
  cbn [avoids] in Hw. apply andb_prop in Hw as [Ha Hw].
  destruct s as [|c s]; [discriminate Hp|].
  rewrite replace_from_cons in Hp. rewrite prefix_cons.
  destruct (String.prefix "{VERSION}" (String c s)).
  - change (VERSION +:+ ?x) with (String "0" ("." +:+ "3.1" +:+ x)) in Hp.
    rewrite prefix_cons in Hp.
    destruct (ascii_dec a "0") as [->|]; [discriminate Ha|discriminate Hp].
  - rewrite prefix_cons in Hp.
    destruct (ascii_dec a c); [by apply IH|discriminate Hp].
Qed.

Lemma replace_from_no_placeholder s k :
  py.contains (py.replace_from k s "{VERSION}" VERSION) "{VERSION}" = false.
Proof.
  revert k. induction s as [|c s IH]; intros k; [by destruct k|].
  destruct k as [|k]; [|apply IH].
  rewrite replace_from_cons.
  destruct (String.prefix "{VERSION}" (String c s)) eqn:E.
  - change (String.length "{VERSION}" - 1) with 8.
    change (VERSION +:+ ?x)
      with (String "0" (String "." (String "3" (String "." (String "1" x))))).
    rewrite !contains_cons, IH. reflexivity.
  - rewrite contains_cons, IH, orb_false_r.
    destruct (String.prefix "{VERSION}"
                (String c (py.replace_from 0 s "{VERSION}" VERSION))) eqn:E2;
      [|reflexivity].
    exfalso.
    change "{VERSION}" with (String "{" "VERSION}") in E, E2.
    rewrite prefix_cons in E, E2.
    destruct (ascii_dec "{" c); [|discriminate E2].
    apply prefix_replaced in E2; [congruence|reflexivity].
Qed.

Lemma replace_absent s old new :
  py.contains s old = false → py.replace s old new = s.
Proof.
  unfold py.replace. induction s as [|c s IH]; intros H; [reflexivity|].
  rewrite contains_cons in H. apply orb_false_elim in H as [Hp Hc].
  rewrite replace_from_cons, Hp. f_equal. by apply IH.
Qed.

(** X12: whatever [sidebar.html] holds, no placeholder is left in the
    sidebar, and substituting once more would change nothing. *)
Theorem sidebar_has_no_placeholder (sidebar_file : string) :
  py.contains (sidebar_html sidebar_file) "{VERSION}" = false
  ∧ sidebar_html (sidebar_html sidebar_file) = sidebar_html sidebar_file.
Proof.
  assert (H : py.contains (sidebar_html sidebar_file) "{VERSION}" = false)
    by apply replace_from_no_placeholder.
  split; [exact H|]. by apply replace_absent.
Qed.

(** X13: a file without the placeholder is shown as it is. *)
Theorem sidebar_without_placeholder (sidebar_file : string) :
  py.contains sidebar_file "{VERSION}" = false →
  sidebar_html sidebar_file = sidebar_file.
Proof. apply replace_absent. Qed.

Lemma append_cons_string x (a b : string) :
  String x a +:+ b = String x (a +:+ b).
Proof. reflexivity. Qed.

Lemma append_assoc_string (a b c : string) : (a +:+ b) +:+ c = a +:+ b +:+ c.
Proof.
  induction a as [|x a IH]; [reflexivity|].
  rewrite !append_cons_string. by rewrite IH.
Qed.

Lemma length_append_string (a b : string) :
  String.length (a +:+ b) = String.length a + String.length b.
Proof.
  induction a as [|x a IH]; [reflexivity|].
  rewrite append_cons_string. simpl. by rewrite IH.
Qed.

Lemma prefix_of_longer p x y :
  String.length p ≤ String.length x →
  String.prefix p (x +:+ y) = String.prefix p x.
Proof.
  revert x. induction p as [|a p IH]; intros x Hlen.
  { by destruct x, y. }
  destruct x as [|b x]; simpl in Hlen; [lia|].
  change (String b x +:+ y) with (String b (x +:+ y)).
  rewrite !prefix_cons. destruct (ascii_dec a b); [|reflexivity].
  apply IH. lia.
Qed.

(** X14: the version is put where the first placeholder stands: the text
    before it is kept, and the text after it is substituted in turn. *)
Theorem sidebar_first_placeholder (before after : string) :
  py.contains (before +:+ "{VERSION") "{VERSION}" = false →
  sidebar_html (before +:+ "{VERSION}" +:+ after)
  = before +:+ VERSION +:+ sidebar_html after.
Proof.
  unfold sidebar_html, py.replace.
  induction before as [|c before IH]; intros H; [by destruct after|].
  change (String c before +:+ ?x) with (String c (before +:+ x)) in *.
  rewrite contains_cons in H. apply orb_false_elim in H as [Hp Hc].
  rewrite replace_from_cons.
  replace (String c (before +:+ "{VERSION}" +:+ after))
    with (String c (before +:+ "{VERSION") +:+ ("}" +:+ after)).
  - rewrite prefix_of_longer, Hp.
    + f_equal. by apply IH.
    + simpl. rewrite length_append_string. simpl. lia.
  - change (String c ?x +:+ ?y) with (String c (x +:+ y)).
    by rewrite append_assoc_string.
Qed.

(** ** The page before any input *)

Lemma example_df_columns : NoDup (pd.columns example_df).
Proof.
  unfold pd.columns. simpl. apply NoDup_cons. split; [|apply NoDup_singleton].
  intros H. apply list_elem_of_singleton in H. discriminate H.
Qed.

(** X15: with no file uploaded and no cell edited, a chart shows under the
    example option only: the upload option leaves [input_df] unbound whatever
    the editor would do, manual entry starts from a table without rows, and
    both are passed over without an error. *)
Theorem untouched_page_draws_iff_example (repr_float : float → string)
    (o : EntryOption) (st : StyleConfig) (t : list py.num) :
  ((∃ fig, visualization repr_float (page o None id st) t = py.Ok (Some fig))
   ↔ o = PlayWithExampleData)
  ∧ (∀ data_editor,
       visualization repr_float (page UploadAnExcelFile None data_editor st) t
       = py.Ok None)
  ∧ visualization repr_float (page AddDataManually None id st) t = py.Ok None.
Proof.
  assert (Hupload : ∀ data_editor,
    visualization repr_float (page UploadAnExcelFile None data_editor st) t
    = py.Ok None) by reflexivity.
  assert (Hmanual :
    visualization repr_float (page AddDataManually None id st) t = py.Ok None)
    by reflexivity.
  split; [|by split]. split.
  - intros [fig H]. destruct o; [reflexivity| |].
    + rewrite (Hupload id) in H. discriminate H.
    + rewrite Hmanual in H. discriminate H.
  - intros ->. eexists.
    apply (visualization_drawn repr_float
             (page PlayWithExampleData None id st) t example_df
             "Skill" _ _ "Proficiency" _ _ [] eq_refl eq_refl
             example_df_columns).
Qed.

(** ** The further properties at concrete inputs *)

Lemma table_reading_raises_suppressed_one_column :
  polygon (env_of UploadAnExcelFile (Some one_column_table))
  = py.Raise py.IndexError
  ∧ py.suppress [py.IndexError; py.NameError]
      (polygon (env_of UploadAnExcelFile (Some one_column_table)))
    = py.Ok None.
Proof.
  split; [reflexivity|].
  exact (proj2 (table_reading_raises_suppressed
                  (env_of UploadAnExcelFile (Some one_column_table))
                  py.IndexError eq_refl)).
Defined.

Lemma skipped_only_if_unusable_empty :
  visualization repr_slider (env_of AddDataManually (Some empty_table))
    default_rgba = py.Ok None
  ∧ unusable (Some empty_table).
Proof.
  split; [reflexivity|].
  apply (skipped_only_if_unusable repr_slider
           (env_of AddDataManually (Some empty_table)) default_rgba).
  - intros df [= <-]. exists 0. exact empty_table_well_formed.
  - reflexivity.
Defined.

Lemma points_stay_paired_abc :
  ∃ fig,
    visualization repr_slider (abc_env AddDataManually default_style)
      default_rgba = py.Ok (Some fig)
    ∧ combine (go.theta (go.data fig)) (go.r (go.data fig))
      = [(py.Str "A", py.Num (py.Int 1)); (py.Str "C", py.Num (py.Int 3));
         (py.Str "B", py.Num (py.Int 2)); (py.Str "A", py.Num (py.Int 1))].
Proof.
  exact (points_stay_paired repr_slider
           (abc_env AddDataManually default_style) default_rgba
           abc_table 3 _ _ _ _ _ _ _ eq_refl eq_refl abc_table_well_formed).
Defined.

Lemma points_depend_on_table_abc :
  ∃ fig1 fig2,
    visualization repr_slider (abc_env PlayWithExampleData titled_style)
      default_rgba = py.Ok (Some fig1)
    ∧ visualization repr_slider
        (abc_env AddDataManually (with_fillcolor "#000000"))
        [py.Int 0; py.Int 0; py.Int 0; py.Float 0.5] = py.Ok (Some fig2)
    ∧ go.theta (go.data fig1) = go.theta (go.data fig2)
    ∧ go.r (go.data fig1) = go.r (go.data fig2).
Proof.
  pose proof (visualization_drawn repr_slider
                (abc_env PlayWithExampleData titled_style) default_rgba
                abc_table _ _ _ _ _ _ _ eq_refl eq_refl
                (proj1 abc_table_well_formed)) as H1.
  pose proof (visualization_drawn repr_slider
                (abc_env AddDataManually (with_fillcolor "#000000"))
                [py.Int 0; py.Int 0; py.Int 0; py.Float 0.5]
                abc_table _ _ _ _ _ _ _ eq_refl eq_refl
                (proj1 abc_table_well_formed)) as H2.
  eexists _, _. split; [exact H1|]. split; [exact H2|].
  exact (points_depend_on_table repr_slider repr_slider
           (abc_env PlayWithExampleData titled_style)
           (abc_env AddDataManually (with_fillcolor "#000000"))
           _ _ _ _ eq_refl H1 H2).
Defined.

Lemma title_rule_example :
  ∃ fig,
    visualization repr_slider (abc_env PlayWithExampleData titled_style)
      default_rgba = py.Ok (Some fig)
    ∧ title titled_style = "My chart"
    ∧ go.text (go.title (go.layout fig)) = "Job Requirements".
Proof.
  pose proof (visualization_drawn repr_slider
                (abc_env PlayWithExampleData titled_style) default_rgba
                abc_table _ _ _ _ _ _ _ eq_refl eq_refl
                (proj1 abc_table_well_formed)) as Hfig.
  eexists. split; [exact Hfig|]. split; [reflexivity|].
  exact (proj1 (title_rule repr_slider _ _ _ Hfig) eq_refl).
Defined.

Lemma rgba_reads_six_characters_636EFA :
  rgba "##636EFA80" (py.Float 0.5) = rgba "#636EFA" (py.Float 0.5).
Proof.
  exact (rgba_reads_six_characters "##636EFA80" "#636EFA" (py.Float 0.5)
           eq_refl).
Defined.

Lemma channels_in_range_signed :
  ∃ a b c,
    [py.Int (-15); py.Int 15; py.Int 15; py.Float 0.5]
    = [py.Int a; py.Int b; py.Int c; py.Float 0.5]
    ∧ (-15 ≤ a ≤ 255)%Z ∧ (-15 ≤ b ≤ 255)%Z ∧ (-15 ≤ c ≤ 255)%Z.
Proof.
  exact (channels_in_range "#-f+f f" (py.Float 0.5) _ eq_refl).
Defined.

Lemma reset_absorbs_style_write_title :
  _reset (setitem "title" (py.Str "Another title") titled_session)
  = _reset titled_session.
Proof.
  apply reset_absorbs_style_write. unfold style_keys. repeat constructor.
Defined.

Lemma sidebar_without_placeholder_plain :
  sidebar_html "<p>About</p>" = "<p>About</p>".
Proof. exact (sidebar_without_placeholder "<p>About</p>" eq_refl). Defined.

Lemma sidebar_first_placeholder_twice :
  sidebar_html "<p>v{VERSION}</p><i>{VERSION}</i>"
  = "<p>v0.3.1</p><i>0.3.1</i>".
Proof.
  exact (sidebar_first_placeholder "<p>v" "</p><i>{VERSION}</i>" eq_refl).
Defined.
